(** * Button.jsx: style resolution, disabled state and content composition

    A shallow embedding of [src/Components/Button.jsx].  The component is a
    function from a props object to a [<button>] element; it reads two
    module-level lookup tables, memoises two derived values with [useMemo]
    and forwards every prop it does not name to the element. *)

From Stdlib Require Import Ascii String.
From stdpp Require Import base option list strings gmap fin_maps pretty.

Local Open Scope string_scope.
Local Open Scope list_scope.

(** ** JavaScript values

    The fragment of the value domain the component can observe: primitives,
    symbols, caller objects held by reference (React elements, ref objects,
    style objects), functions with their source text, and the one built-in
    object that the lookup tables inherit from.  Numbers are the safe
    integers (below [2^53] in magnitude, printed in decimal) and [NaN]. *)

Inductive value : Type :=
| VUndefined
| VNull
| VBool (b : bool)
| VNum (z : Z)
| VNaN
| VStr (s : string)
| VSymbol (ref : positive)
| VObject (ref : positive)
| VFunction (ref : positive) (src : string)
| VObjectPrototype.

#[global] Instance value_eq_dec : EqDecision value.
Proof. solve_decision. Defined.

#[global] Instance value_inhabited : Inhabited value := populate VUndefined.

(** Abrupt completion: the only exception the operations used here can
    raise is a [TypeError]. *)

Inductive completion (A : Type) : Type :=
| Normal (a : A)
| Throw (msg : string).

Arguments Normal {A} a.
Arguments Throw {A} msg.

#[global] Instance completion_ret : MRet completion := λ A a, Normal a.

#[global] Instance completion_bind : MBind completion := λ A B k c,
  match c with
  | Normal a => k a
  | Throw e => Throw e
  end.

#[global] Instance completion_fmap : FMap completion := λ A B f c,
  match c with
  | Normal a => Normal (f a)
  | Throw e => Throw e
  end.

(** [ToBoolean]: what [Boolean(v)], [v ? a : b], [!v], [&&] and [||] test. *)
Definition ToBoolean (v : value) : bool :=
  match v with
  | VUndefined | VNull | VNaN => false
  | VBool b => b
  | VNum z => negb (z =? 0)%Z
  | VStr s => negb (String.eqb s "")
  | VSymbol _ | VObject _ | VFunction _ _ | VObjectPrototype => true
  end.

(** [ToString].  An ordinary object without a [toString] of its own prints
    as ["[object Object]"], a function as its source text, and a symbol
    cannot be converted. *)
Definition ToString (v : value) : completion string :=
  match v with
  | VUndefined => Normal "undefined"
  | VNull => Normal "null"
  | VBool true => Normal "true"
  | VBool false => Normal "false"
  | VNum z => Normal (pretty z)
  | VNaN => Normal "NaN"
  | VStr s => Normal s
  | VSymbol _ => Throw "TypeError: Cannot convert a Symbol value to a string"
  | VObject _ | VObjectPrototype => Normal "[object Object]"
  | VFunction _ src => Normal src
  end.

(** [a && b] and [a || b] return one of their operands. *)
Definition js_and (a b : value) : value := if ToBoolean a then b else a.
Definition js_or (a b : value) : value := if ToBoolean a then a else b.
Definition js_not (a : value) : value := VBool (negb (ToBoolean a)).

(** ** Objects used as lookup tables

    An object literal has [Object.prototype] as its prototype, so a
    property read that misses the literal's own keys continues there. *)

(** A built-in function; its source text is given in the form V8 prints
    it. *)
Definition native (ref : positive) (name : string) : value :=
  VFunction ref ("function " +:+ name +:+ "() { [native code] }").

Definition Object_prototype : gmap string value :=
  list_to_map
    [ ("constructor", native 1 "Object");
      ("__defineGetter__", native 2 "__defineGetter__");
      ("__defineSetter__", native 3 "__defineSetter__");
      ("hasOwnProperty", native 4 "hasOwnProperty");
      ("__lookupGetter__", native 5 "__lookupGetter__");
      ("__lookupSetter__", native 6 "__lookupSetter__");
      ("isPrototypeOf", native 7 "isPrototypeOf");
      ("propertyIsEnumerable", native 8 "propertyIsEnumerable");
      ("toString", native 9 "toString");
      ("valueOf", native 10 "valueOf");
      ("toLocaleString", native 11 "toLocaleString") ].

(** [ToPropertyKey]: a symbol stays a symbol (and names no property of the
    objects above), every other value is converted to a string. *)
Definition ToPropertyKey (v : value) : option string :=
  match ToString v with
  | Normal k => Some k
  | Throw _ => None
  end.

(** [obj[key]] for an object literal [obj]: an own property first, then the
    prototype.  The accessor [__proto__] of [Object.prototype] answers with
    the prototype of the receiver, which is [Object.prototype] itself. *)
Definition Get (obj : gmap string value) (key : value) : value :=
  match ToPropertyKey key with
  | None => VUndefined
  | Some k =>
      match obj !! k with
      | Some v => v
      | None =>
          if String.eqb k "__proto__" then VObjectPrototype
          else default VUndefined (Object_prototype !! k)
      end
  end.

(** [Array.prototype.join]: holes, [undefined] and [null] print as the
    empty string, everything else through [ToString]. *)
Fixpoint join_strings (sep : string) (l : list string) : string :=
  match l with
  | [] => ""
  | [x] => x
  | x :: l' => x +:+ sep +:+ join_strings sep l'
  end.

Definition element_text (v : value) : completion string :=
  match v with
  | VUndefined | VNull => Normal ""
  | _ => ToString v
  end.

Definition Array_join (sep : string) (l : list value) : completion string :=
  join_strings sep <$> mapM element_text l.

(** ** Module constants *)

Definition VARIANT_STYLES : gmap string value :=
  list_to_map
    [ ("primary",
        VStr "bg-blue-600 text-white hover:bg-blue-700 focus:ring-blue-500 active:bg-blue-800");
      ("secondary",
        VStr "bg-gray-600 text-white hover:bg-gray-700 focus:ring-gray-500 active:bg-gray-800");
      ("success",
        VStr "bg-green-600 text-white hover:bg-green-700 focus:ring-green-500 active:bg-green-800");
      ("danger",
        VStr "bg-red-600 text-white hover:bg-red-700 focus:ring-red-500 active:bg-red-800");
      ("warning",
        VStr "bg-yellow-500 text-white hover:bg-yellow-600 focus:ring-yellow-400 active:bg-yellow-700");
      ("info",
        VStr "bg-cyan-600 text-white hover:bg-cyan-700 focus:ring-cyan-500 active:bg-cyan-800");
      ("ghost",
        VStr "bg-transparent border-2 border-gray-300 text-gray-700 hover:bg-gray-100 focus:ring-gray-500 active:bg-gray-200");
      ("link",
        VStr "bg-transparent text-blue-600 hover:text-blue-800 hover:underline focus:ring-blue-500 p-0");
      ("outline",
        VStr "bg-transparent border-2 border-blue-600 text-blue-600 hover:bg-blue-50 focus:ring-blue-500 active:bg-blue-100") ].

Definition SIZE_STYLES : gmap string value :=
  list_to_map
    [ ("xs", VStr "px-2 py-1 text-xs gap-1");
      ("sm", VStr "px-3 py-1.5 text-sm gap-1.5");
      ("md", VStr "px-4 py-2 text-base gap-2");
      ("lg", VStr "px-6 py-3 text-lg gap-2.5");
      ("xl", VStr "px-8 py-4 text-xl gap-3") ].

Definition BASE_STYLES : string :=
  "inline-flex items-center justify-center font-medium rounded-lg transition-all duration-200 focus:outline-none focus:ring-2 focus:ring-offset-2 disabled:opacity-50 disabled:cursor-not-allowed".

(** ** The body of the first [useMemo]: the class string *)

Definition classes (variant size fullWidth className : value) : list value :=
  [ VStr BASE_STYLES;
    Get VARIANT_STYLES variant;
    Get SIZE_STYLES size;
    if ToBoolean fullWidth then VStr "w-full" else VStr "";
    className ].

Definition buttonClassName (variant size fullWidth className : value)
  : completion string :=
  Array_join " " (List.filter ToBoolean (classes variant size fullWidth className)).

(** ** The body of the second [useMemo]: the disabled flag *)

Definition isDisabled (disabled loading : value) : value :=
  js_or disabled loading.

(** ** The element tree

    What the children of the [<button>] can be: the value a short-circuited
    [&&] left behind, the spinner, or a [<span>] around a caller value. *)

Inductive node : Type :=
| Raw (v : value)
| Spinner
| span (child : value).

#[global] Instance node_eq_dec : EqDecision node.
Proof. solve_decision. Defined.

Record element : Type := Element {
  tag : string;
  attributes : gmap string value;
  child_nodes : list node;
}.

(** [cond && <el/>] in child position. *)
Definition and_node (cond : value) (el : node) : node :=
  if ToBoolean cond then el else Raw cond.

(** The four child expressions of the [<button>], in source order. *)
Definition button_children (loading leftIcon children rightIcon : value)
  : list node :=
  [ and_node loading Spinner;
    and_node (js_and (js_not loading) leftIcon) (span leftIcon);
    span children;
    and_node (js_and (js_not loading) rightIcon) (span rightIcon) ].

(** React renders nothing for [true], [false], [null] and [undefined]. *)
Definition renders (n : node) : bool :=
  match n with
  | Raw (VBool _) | Raw VNull | Raw VUndefined => false
  | _ => true
  end.

Definition rendered (ns : list node) : list node := List.filter renders ns.

(** The composed content of the control: what is rendered inside it. *)
Definition content (loading leftIcon children rightIcon : value) : list node :=
  rendered (button_children loading leftIcon children rightIcon).

(** ** Hooks

    [useMemo(create, deps)] keeps the last dependencies and the last value;
    it calls [create] on the first render and whenever a dependency differs
    from the stored one under [Object.is], which on this value domain is
    equality. *)

Definition memo_cell (A : Type) : Type := option (list value * A).

Definition useMemo {A} (cell : memo_cell A) (create : unit → completion A)
    (deps : list value) : completion (A * memo_cell A) :=
  match cell with
  | Some (prev, a) =>
      if bool_decide (prev = deps) then Normal (a, cell)
      else a' ← create (); Normal (a', Some (deps, a'))
  | None => a' ← create (); Normal (a', Some (deps, a'))
  end.

Record hooks : Type := Hooks {
  memo_buttonClassName : memo_cell string;
  memo_isDisabled : memo_cell value;
}.

(** The hook state of a component that has not rendered yet. *)
Definition mount : hooks := Hooks None None.

(** ** The component *)

(** A parameter default applies when the property is missing or
    [undefined]. *)
Definition or_default (o : option value) (d : value) : value :=
  match o with
  | None | Some VUndefined => d
  | Some v => v
  end.

(** The names the parameter pattern binds; [...props] receives the rest. *)
Definition named_props : list string :=
  [ "variant"; "size"; "fullWidth"; "loading"; "disabled"; "leftIcon";
    "rightIcon"; "children"; "className"; "type" ].

Definition rest_props (p : gmap string value) : gmap string value :=
  filter (λ kv, kv.1 ∉ named_props) p.

Definition Button (h : hooks) (ref : value) (p : gmap string value)
  : completion (element * hooks) :=
  let variant := or_default (p !! "variant") (VStr "primary") in
  let size := or_default (p !! "size") (VStr "md") in
  let fullWidth := or_default (p !! "fullWidth") (VBool false) in
  let loading := or_default (p !! "loading") (VBool false) in
  let disabled := or_default (p !! "disabled") (VBool false) in
  let leftIcon := or_default (p !! "leftIcon") VNull in
  let rightIcon := or_default (p !! "rightIcon") VNull in
  let children := default VUndefined (p !! "children") in
  let className := or_default (p !! "className") (VStr "") in
  let type := or_default (p !! "type") (VStr "button") in
  let props := rest_props p in
  '(buttonClassName, m1) ←
    useMemo (memo_buttonClassName h)
      (λ _, buttonClassName variant size fullWidth className)
      [variant; size; fullWidth; className];
  '(isDisabled, m2) ←
    useMemo (memo_isDisabled h)
      (λ _, Normal (isDisabled disabled loading))
      [disabled; loading];
  Normal
    (Element "button"
       (props ∪
        <["ref" := ref]> (<["type" := type]>
          (<["className" := VStr buttonClassName]>
            (<["disabled" := isDisabled]> ∅))))
       (button_children loading leftIcon children rightIcon),
     Hooks m1 m2).

(** A sequence of renders of one mounted instance; a render that throws
    leaves the hook state as it was. *)
Definition after_render (h : hooks) (rp : value * gmap string value) : hooks :=
  match Button h rp.1 rp.2 with
  | Normal (_, h') => h'
  | Throw _ => h
  end.

Definition renders_from (h : hooks) (history : list (value * gmap string value))
  : hooks :=
  foldl after_render h history.

(** * Vocabulary of the statements *)

(** ** Icons *)

(** An icon is present when the code's own test, its truthiness, succeeds;
    it is absent when it is a value React renders nothing for. *)
Definition present (icon : value) : Prop := ToBoolean icon = true.

Definition absent (icon : value) : Prop :=
  icon = VNull ∨ icon = VUndefined ∨ icon = VBool false.

(** The slot of an icon: a [<span>] around it, or nothing. *)
Definition icon_slot (icon : value) : list node :=
  if ToBoolean icon then [span icon] else [].

(** The composed content of a rendered element. *)
Definition composed (el : element) : list node := rendered (child_nodes el).

(** ** Hook state *)

(** A memo cell is coherent when the value it holds is the one its stored
    dependencies produce. *)
Definition hooks_ok (h : hooks) : Prop :=
  (∀ deps s, memo_buttonClassName h = Some (deps, s) →
     ∃ variant size fullWidth className,
       deps = [variant; size; fullWidth; className] ∧
       buttonClassName variant size fullWidth className = Normal s) ∧
  (∀ deps d, memo_isDisabled h = Some (deps, d) →
     ∃ disabled loading,
       deps = [disabled; loading] ∧ isDisabled disabled loading = d).

(** ** Class strings as token lists

    A class attribute is read as a list of tokens separated by ASCII
    whitespace.  [tokens] splits at every whitespace character and keeps the
    empty pieces, so a doubled, leading or trailing separator shows up as an
    empty token. *)

Definition is_whitespace (c : ascii) : bool :=
  match c with
  | "009" | "010" | "012" | "013" | " " => true
  | _ => false
  end%char.

Fixpoint tokens (s : string) : list string :=
  match s with
  | EmptyString => [""]
  | String c s' =>
      if is_whitespace c then "" :: tokens s'
      else
        match tokens s' with
        | t :: ts => String c t :: ts
        | [] => [String c ""]
        end
  end.

Definition nonempty (s : string) : bool := negb (String.eqb s "").

(** No empty token: no doubled separator, none in front, none at the end,
    and the string is not empty. *)
Definition tidy (s : string) : bool := forallb nonempty (tokens s).

(** ** What [filter(Boolean).join(" ")] keeps *)

(** The text an array element contributes: nothing when it is falsy. *)
Definition kept (v : value) : list string :=
  if ToBoolean v then
    match ToString v with
    | Normal s => [s]
    | Throw _ => []
    end
  else [].

Definition is_symbol (v : value) : bool :=
  match v with
  | VSymbol _ => true
  | _ => false
  end.

(** ** Names *)

(** The recognised values, as the component documents them. *)
Definition variants : list string :=
  [ "primary"; "secondary"; "success"; "danger"; "warning"; "info"; "ghost";
    "link"; "outline" ].

Definition sizes : list string := [ "xs"; "sm"; "md"; "lg"; "xl" ].

(** The property names every object literal inherits. *)
Definition inherited : list string :=
  [ "constructor"; "__defineGetter__"; "__defineSetter__"; "hasOwnProperty";
    "__lookupGetter__"; "__lookupSetter__"; "isPrototypeOf";
    "propertyIsEnumerable"; "toString"; "valueOf"; "toLocaleString";
    "__proto__" ].

(** A value names no recognised entry and no inherited member when its
    property key, if it has a string one, is in neither list. *)
Definition unrecognised (names : list string) (key : value) : Prop :=
  ∀ k, ToPropertyKey key = Some k → (k ∉ names) ∧ (k ∉ inherited).

(** ** Fragments *)

(** What follows the size fragment: ["w-full"] when asked for, then a
    non-empty [className], each after one space. *)
Definition optional_classes (fullWidth : bool) (className : string) : string :=
  (if fullWidth then " w-full" else "")
  +:+ (if decide (className = "") then "" else " " +:+ className).

(** A value a table read may produce and [filter(Boolean).join] may keep:
    never a symbol, and with a tidy, non-empty text when it is truthy. *)
Definition good_fragment (v : value) : bool :=
  negb (is_symbol v) && forallb (λ s, nonempty s && tidy s) (kept v).

(** The text of the class string, written without the filter: the base
    fragment, then what each of the four other array elements keeps. *)
Definition kept_classes (variant size fullWidth className : value) : list string :=
  BASE_STYLES ::
  kept (Get VARIANT_STYLES variant) ++
  kept (Get SIZE_STYLES size) ++
  (if ToBoolean fullWidth then ["w-full"] else []) ++
  kept className.

(** The separators a fragment list needs in front of each of its members. *)
Definition spaced (l : list string) : string :=
  foldr (λ s acc, " " +:+ s +:+ acc) "" l.

(** ** Attributes of a render *)

Definition className_of (r : element * hooks) : option value :=
  attributes r.1 !! "className".

Definition computed_attributes (r : element * hooks)
  : option value * option value * option value :=
  (attributes r.1 !! "type",
   attributes r.1 !! "className",
   attributes r.1 !! "disabled").

(** ** A render, given its class string *)

(** The class string of a props object: the first memoised computation on
    the destructured props. *)
Definition resolved (p : gmap string value) : completion string :=
  buttonClassName (or_default (p !! "variant") (VStr "primary"))
    (or_default (p !! "size") (VStr "md"))
    (or_default (p !! "fullWidth") (VBool false))
    (or_default (p !! "className") (VStr "")).

(** The element and the hook state a render leaves when the class string is
    [s]. *)
Definition outcome (ref : value) (p : gmap string value) (s : string)
  : element * hooks :=
  (Element "button"
     (rest_props p ∪
      <["ref" := ref]> (<["type" := or_default (p !! "type") (VStr "button")]>
        (<["className" := VStr s]>
          (<["disabled" :=
               isDisabled (or_default (p !! "disabled") (VBool false))
                 (or_default (p !! "loading") (VBool false))]> ∅))))
     (button_children (or_default (p !! "loading") (VBool false))
        (or_default (p !! "leftIcon") VNull)
        (default VUndefined (p !! "children"))
        (or_default (p !! "rightIcon") VNull)),
   Hooks
     (Some ([ or_default (p !! "variant") (VStr "primary");
              or_default (p !! "size") (VStr "md");
              or_default (p !! "fullWidth") (VBool false);
              or_default (p !! "className") (VStr "") ], s))
     (Some ([ or_default (p !! "disabled") (VBool false);
              or_default (p !! "loading") (VBool false) ],
            isDisabled (or_default (p !! "disabled") (VBool false))
              (or_default (p !! "loading") (VBool false))))).

(** * Properties *)

(** ** The definitions at work *)

Example Get_own_name :
  Get SIZE_STYLES (VStr "md") = VStr "px-4 py-2 text-base gap-2".
Proof. reflexivity. Qed.

Example Get_missing_name : Get SIZE_STYLES (VStr "huge") = VUndefined.
Proof. reflexivity. Qed.

Example Get_inherited_name :
  Get SIZE_STYLES (VStr "valueOf")
  = VFunction 10 "function valueOf() { [native code] }".
Proof. reflexivity. Qed.

Example classes_default :
  List.filter ToBoolean
    (classes (VStr "link") (VStr "xs") (VBool false) (VStr ""))
  = [ VStr BASE_STYLES;
      VStr "bg-transparent text-blue-600 hover:text-blue-800 hover:underline focus:ring-blue-500 p-0";
      VStr "px-2 py-1 text-xs gap-1" ].
Proof. reflexivity. Qed.

Example symbol_className_throws :
  buttonClassName (VStr "primary") (VStr "md") (VBool false) (VSymbol 1)
  = Throw "TypeError: Cannot convert a Symbol value to a string".
Proof. reflexivity. Qed.

Example children_while_loading :
  button_children (VBool true) (VObject 1) (VStr "Save") VNull
  = [Spinner; Raw (VBool false); span (VStr "Save"); Raw (VBool false)].
Proof. reflexivity. Qed.

Example children_without_icons :
  button_children (VBool false) VNull (VStr "Save") VNull
  = [Raw (VBool false); Raw VNull; span (VStr "Save"); Raw VNull].
Proof. reflexivity. Qed.

(** A falsy icon that React still renders is left in the content as it
    is. *)
Example zero_icon_is_rendered :
  content (VBool false) (VNum 0) (VStr "Save") VNull
  = [Raw (VNum 0); span (VStr "Save")].
Proof. reflexivity. Qed.

Example tokens_stray_spaces : tokens "p-1  m-2 " = ["p-1"; ""; "m-2"; ""].
Proof. reflexivity. Qed.

Example tidy_BASE_STYLES : tidy BASE_STYLES = true.
Proof. reflexivity. Qed.

(** A second render with the same dependencies answers from the cell. *)
Example useMemo_hit :
  useMemo (Some ([VBool true; VBool false], VBool true))
    (λ _, Throw "not called") [VBool true; VBool false]
  = Normal (VBool true, Some ([VBool true; VBool false], VBool true)).
Proof. reflexivity. Qed.

(** ** Booleans and icons *)

Lemma isDisabled_booleans (d l : bool) :
  isDisabled (VBool d) (VBool l) = VBool (d || l).
Proof. by destruct d, l. Qed.

Lemma icon_slot_present icon : present icon → icon_slot icon = [span icon].
Proof. unfold present, icon_slot. by intros ->. Qed.

Lemma icon_slot_absent icon : absent icon → icon_slot icon = [].
Proof. by intros [-> | [-> | ->]]. Qed.

Lemma content_loading leftIcon children rightIcon :
  content (VBool true) leftIcon children rightIcon = [Spinner; span children].
Proof. reflexivity. Qed.

Lemma content_idle leftIcon children rightIcon :
  present leftIcon ∨ absent leftIcon →
  present rightIcon ∨ absent rightIcon →
  content (VBool false) leftIcon children rightIcon
  = icon_slot leftIcon ++ [span children] ++ icon_slot rightIcon.
Proof.
  unfold content, button_children, and_node, js_and, js_not, icon_slot.
  intros [Hl | Hl] [Hr | Hr]; simpl.
  - unfold present in *. by rewrite Hl, Hr.
  - unfold present in Hl. rewrite Hl. by destruct Hr as [-> | [-> | ->]].
  - unfold present in Hr. rewrite Hr. by destruct Hl as [-> | [-> | ->]].
  - by destruct Hl as [-> | [-> | ->]], Hr as [-> | [-> | ->]].
Qed.

(** ** Hook state *)

Lemma hooks_ok_mount : hooks_ok mount.
Proof. split; intros ? ? H; discriminate H. Qed.

Section coherent_hooks.

Context (h : hooks) (Hh : hooks_ok h).

(** With a coherent cell, a hit and a miss of [useMemo] are the same. *)
Lemma useMemo_buttonClassName variant size fullWidth className :
  useMemo (memo_buttonClassName h)
    (λ _, buttonClassName variant size fullWidth className)
    [variant; size; fullWidth; className]
  = s ← buttonClassName variant size fullWidth className;
    Normal (s, Some ([variant; size; fullWidth; className], s)).
Proof.
  destruct Hh as [Hc _]. unfold useMemo.
  destruct (memo_buttonClassName h) as [[prev s] |] eqn:E; [| done].
  case_bool_decide as Hd; [| done]. subst prev.
  destruct (Hc _ _ eq_refl) as (v & sz & fw & cn & Heq & Hs).
  injection Heq as -> -> -> ->. by rewrite Hs.
Qed.

Lemma useMemo_isDisabled disabled loading :
  useMemo (memo_isDisabled h) (λ _, Normal (isDisabled disabled loading))
    [disabled; loading]
  = Normal (isDisabled disabled loading,
            Some ([disabled; loading], isDisabled disabled loading)).
Proof.
  destruct Hh as [_ Hd]. unfold useMemo.
  destruct (memo_isDisabled h) as [[prev d] |] eqn:E; [| done].
  case_bool_decide as Heq; [| done]. subst prev.
  destruct (Hd _ _ eq_refl) as (a & b & Hab & <-).
  by injection Hab as -> ->.
Qed.

(** A render, in one equation: it throws when the class string does, and
    otherwise returns the element and the two refreshed memo cells. *)
Lemma Button_coherent ref (p : gmap string value) :
  Button h ref p = outcome ref p <$> resolved p.
Proof.
  unfold Button, resolved, outcome.
  rewrite useMemo_buttonClassName.
  destruct (buttonClassName _ _ _ _) as [s | e]; [| done]. simpl.
  by rewrite useMemo_isDisabled.
Qed.

End coherent_hooks.

(** Memoisation is invisible: with coherent cells a render returns what a
    first render returns. *)
Lemma Button_memo_transparent h ref p :
  hooks_ok h → Button h ref p = Button mount ref p.
Proof.
  intros Hh.
  by rewrite (Button_coherent h Hh), (Button_coherent mount hooks_ok_mount).
Qed.

Lemma Button_hooks_ok h ref p el h' :
  hooks_ok h → Button h ref p = Normal (el, h') → hooks_ok h'.
Proof.
  intros Hh. rewrite (Button_coherent h Hh). unfold resolved.
  destruct (buttonClassName _ _ _ _) as [s | e] eqn:Hs; [| done].
  intros [= <- <-].
  split; simpl; intros ? ? [= <- <-]; eauto 10.
Qed.

Lemma after_render_hooks_ok h rp : hooks_ok h → hooks_ok (after_render h rp).
Proof.
  intros Hh. unfold after_render.
  destruct (Button h rp.1 rp.2) as [[el h'] | e] eqn:E; [| done].
  eauto using Button_hooks_ok.
Qed.

Lemma renders_from_hooks_ok history :
  ∀ h, hooks_ok h → hooks_ok (renders_from h history).
Proof.
  unfold renders_from.
  induction history as [| rp history IH]; simpl; [done |].
  intros h Hh. apply IH. by apply after_render_hooks_ok.
Qed.

Lemma history_hooks_ok history : hooks_ok (renders_from mount history).
Proof. apply renders_from_hooks_ok, hooks_ok_mount. Qed.

#[local] Hint Resolve hooks_ok_mount history_hooks_ok after_render_hooks_ok : core.

(** After any history, a render is the one equation above. *)
Lemma Button_history history ref (p : gmap string value) :
  Button (renders_from mount history) ref p = outcome ref p <$> resolved p.
Proof. by apply Button_coherent. Qed.

Lemma Button_Normal history ref (p : gmap string value) el h' :
  Button (renders_from mount history) ref p = Normal (el, h') →
  ∃ s, resolved p = Normal s ∧ (el, h') = outcome ref p s.
Proof.
  rewrite Button_history.
  destruct (resolved p) as [s | e]; [| done].
  intros [= <- <-]. by exists s.
Qed.

Lemma completion_fmap_compose {A B C} (f : A → B) (g : B → C) (c : completion A) :
  g <$> (f <$> c) = (g ∘ f) <$> c.
Proof. by destruct c. Qed.

Lemma completion_fmap_ext {A B} (f g : A → B) (c : completion A) :
  (∀ a, f a = g a) → f <$> c = g <$> c.
Proof. intros H. destruct c; simpl; [| done]. unfold fmap. simpl. by rewrite H. Qed.

(** ** The rest object *)

Lemma rest_props_named p k : k ∈ named_props → rest_props p !! k = None.
Proof.
  intros Hk. unfold rest_props. apply map_lookup_filter_None. right.
  intros v _ Hn. by apply Hn.
Qed.

Lemma rest_props_other p k : k ∉ named_props → rest_props p !! k = p !! k.
Proof.
  intros Hk. unfold rest_props.
  destruct (p !! k) as [v |] eqn:E.
  - by apply map_lookup_filter_Some.
  - apply map_lookup_filter_None. by left.
Qed.

Lemma rest_props_delete_insert (p : gmap string value) k d :
  k ∈ named_props → rest_props (delete k p) = rest_props (<[k:=d]> p).
Proof.
  intros Hk. apply map_eq. intros j.
  destruct (decide (j ∈ named_props)) as [Hj | Hj].
  - by rewrite !rest_props_named.
  - rewrite !rest_props_other by done.
    assert (k ≠ j) by (intros ->; done).
    by rewrite lookup_delete_ne, lookup_insert_ne.
Qed.

(** Membership in a list of literals, by evaluation. *)
Ltac in_list := apply (bool_decide_unpack _); vm_compute; exact I.

(** The three attributes the component computes are not shadowed by the
    spread of the rest object. *)
Lemma outcome_computed_attributes ref (p : gmap string value) s :
  computed_attributes (outcome ref p s)
  = (Some (or_default (p !! "type") (VStr "button")),
     Some (VStr s),
     Some (isDisabled (or_default (p !! "disabled") (VBool false))
             (or_default (p !! "loading") (VBool false)))).
Proof.
  unfold computed_attributes, outcome. simpl.
  by rewrite !lookup_union_r by (apply rest_props_named; in_list).
Qed.

Lemma outcome_composed ref (p : gmap string value) s :
  composed (outcome ref p s).1
  = content (or_default (p !! "loading") (VBool false))
      (or_default (p !! "leftIcon") VNull)
      (default VUndefined (p !! "children"))
      (or_default (p !! "rightIcon") VNull).
Proof. reflexivity. Qed.

(** ** Tokens and joins *)

Lemma tokens_not_nil s : tokens s ≠ [].
Proof.
  destruct s as [| c s]; simpl; [done |].
  destruct (is_whitespace c); [done |]. by destruct (tokens s).
Qed.

Lemma tokens_app_space a b :
  tokens (a +:+ " " +:+ b) = tokens a ++ tokens b.
Proof.
  induction a as [| c a IH]; simpl; [done |].
  rewrite IH. destruct (is_whitespace c); [done |].
  pose proof (tokens_not_nil a). by destruct (tokens a).
Qed.

Lemma tokens_join x l :
  tokens (join_strings " " (x :: l)) = concat (tokens <$> x :: l).
Proof.
  revert x. induction l as [| y l IH]; intros x.
  - simpl. by rewrite app_nil_r.
  - change (join_strings " " (x :: y :: l))
      with (x +:+ " " +:+ join_strings " " (y :: l)).
    by rewrite tokens_app_space, IH.
Qed.

Lemma tidy_join x l :
  tidy (join_strings " " (x :: l)) = forallb tidy (x :: l).
Proof.
  unfold tidy. rewrite tokens_join.
  generalize (x :: l). intros l'.
  induction l' as [| y l' IH]; [done |].
  rewrite fmap_cons. simpl concat. rewrite forallb_app, IH. done.
Qed.

Lemma append_empty_r (s : string) : s +:+ "" = s.
Proof.
  induction s as [| c s IH]; [done |].
  change (String c s +:+ "") with (String c (s +:+ "")). by rewrite IH.
Qed.

Lemma append_assoc (a b c : string) : (a +:+ b) +:+ c = a +:+ b +:+ c.
Proof.
  induction a as [| x a IH]; [done |].
  change (String x (a +:+ b) +:+ c = String x (a +:+ b +:+ c)).
  change (String x ((a +:+ b) +:+ c) = String x (a +:+ b +:+ c)).
  by rewrite IH.
Qed.

Lemma join_strings_spaced x l : join_strings " " (x :: l) = x +:+ spaced l.
Proof.
  revert x. induction l as [| y l IH]; intros x.
  - simpl. by rewrite append_empty_r.
  - change (join_strings " " (x :: y :: l))
      with (x +:+ " " +:+ join_strings " " (y :: l)).
    rewrite IH. done.
Qed.

Lemma spaced_app l1 l2 : spaced (l1 ++ l2) = spaced l1 +:+ spaced l2.
Proof.
  induction l1 as [| s l1 IH]; [done |].
  simpl. rewrite IH. by rewrite !append_assoc.
Qed.

Lemma Array_join_filter sep (l : list value) :
  forallb (λ v, negb (is_symbol v)) l = true →
  Array_join sep (List.filter ToBoolean l)
  = Normal (join_strings sep (l ≫= kept)).
Proof.
  unfold Array_join. intros Hl.
  assert (mapM element_text (List.filter ToBoolean l) = Normal (l ≫= kept)) as ->;
    [| done].
  induction l as [| v l IH]; simpl; [done |].
  simpl in Hl. apply andb_prop in Hl as [Hv Hl].
  unfold kept at 1.
  destruct (ToBoolean v) eqn:Hb; simpl; [| by apply IH].
  rewrite (IH Hl). by destruct v as [| | [] | | | | | | |].
Qed.

(** ** The lookup tables *)

Lemma VARIANT_STYLES_dom k : is_Some (VARIANT_STYLES !! k) ↔ k ∈ variants.
Proof.
  rewrite <- elem_of_dom. unfold VARIANT_STYLES.
  rewrite dom_list_to_map_L, elem_of_list_to_set. done.
Qed.

Lemma SIZE_STYLES_dom k : is_Some (SIZE_STYLES !! k) ↔ k ∈ sizes.
Proof.
  rewrite <- elem_of_dom. unfold SIZE_STYLES.
  rewrite dom_list_to_map_L, elem_of_list_to_set. done.
Qed.

Lemma Object_prototype_dom k :
  k ∈ inherited ↔ k = "__proto__" ∨ is_Some (Object_prototype !! k).
Proof.
  rewrite <- elem_of_dom. unfold Object_prototype.
  rewrite dom_list_to_map_L, elem_of_list_to_set.
  match goal with |- _ ↔ _ ∨ _ ∈ ?l => change inherited with (l ++ ["__proto__"]) end.
  rewrite elem_of_app, list_elem_of_singleton. tauto.
Qed.

Lemma list_to_map_Forall (P : value → Prop) (l : list (string * value)) k v :
  Forall (λ kv, P kv.2) l →
  (list_to_map l : gmap string value) !! k = Some v → P v.
Proof.
  intros Hl Hk. apply elem_of_list_to_map_2 in Hk.
  rewrite Forall_forall in Hl. exact (Hl _ Hk).
Qed.

Ltac table_Forall := repeat (constructor; [by vm_compute |]); constructor.

Lemma VARIANT_STYLES_fragment k v :
  VARIANT_STYLES !! k = Some v →
  (∃ s, v = VStr s) ∧ ToBoolean v = true ∧ good_fragment v = true.
Proof.
  unfold VARIANT_STYLES.
  apply (list_to_map_Forall
           (λ v, (∃ s, v = VStr s) ∧ ToBoolean v = true ∧ good_fragment v = true)).
  repeat (constructor; [by split; [eexists | vm_compute] |]). constructor.
Qed.

Lemma SIZE_STYLES_fragment k v :
  SIZE_STYLES !! k = Some v →
  (∃ s, v = VStr s) ∧ ToBoolean v = true ∧ good_fragment v = true.
Proof.
  unfold SIZE_STYLES.
  apply (list_to_map_Forall
           (λ v, (∃ s, v = VStr s) ∧ ToBoolean v = true ∧ good_fragment v = true)).
  repeat (constructor; [by split; [eexists | vm_compute] |]). constructor.
Qed.

Lemma Object_prototype_fragment k v :
  Object_prototype !! k = Some v → good_fragment v = true.
Proof.
  unfold Object_prototype.
  apply (list_to_map_Forall (λ v, good_fragment v = true)). table_Forall.
Qed.

(** Whatever the key, a read of a table whose own values are good yields a
    good value: an own fragment, an inherited member, or [undefined]. *)
Lemma Get_good (obj : gmap string value) key :
  (∀ k v, obj !! k = Some v → good_fragment v = true) →
  good_fragment (Get obj key) = true.
Proof.
  intros Hobj. unfold Get.
  destruct (ToPropertyKey key) as [k |]; [| done].
  destruct (obj !! k) as [v |] eqn:E; [by eapply Hobj |].
  destruct (String.eqb k "__proto__"); [done |].
  destruct (Object_prototype !! k) as [v |] eqn:E'; [| done].
  by eapply Object_prototype_fragment.
Qed.

(** A key that is neither an own name nor an inherited one reads as
    [undefined]. *)
Lemma Get_unrecognised (obj : gmap string value) names key :
  (∀ k, is_Some (obj !! k) ↔ k ∈ names) →
  unrecognised names key →
  Get obj key = VUndefined.
Proof.
  intros Hdom Hu. unfold Get.
  destruct (ToPropertyKey key) as [k |] eqn:Hkey; [| done].
  destruct (Hu k Hkey) as [Hk Hi].
  assert (obj !! k = None) as ->.
  { apply eq_None_not_Some. by rewrite Hdom. }
  destruct (String.eqb_spec k "__proto__") as [-> | Hne].
  - exfalso. apply Hi. apply Object_prototype_dom. by left.
  - destruct (Object_prototype !! k) as [v |] eqn:E; [| done].
    exfalso. apply Hi. apply Object_prototype_dom. right. by exists v.
Qed.

Lemma Get_own (obj : gmap string value) k v :
  obj !! k = Some v → Get obj (VStr k) = v.
Proof. intros Hk. unfold Get, ToPropertyKey. simpl. by rewrite Hk. Qed.

(** ** The class string, fragment by fragment *)

Lemma kept_VStr s : kept (VStr s) = if decide (s = "") then [] else [s].
Proof.
  unfold kept. simpl. destruct (String.eqb_spec s "") as [-> | Hne]; simpl.
  - done.
  - by rewrite decide_False.
Qed.

Lemma good_fragment_not_symbol v : good_fragment v = true → is_symbol v = false.
Proof.
  unfold good_fragment. intros [H _]%andb_prop. by apply negb_true_iff.
Qed.

Lemma good_fragment_tidy v :
  good_fragment v = true → forallb tidy (kept v) = true.
Proof.
  unfold good_fragment. intros [_ H]%andb_prop.
  induction (kept v) as [| s l IH]; simpl in *; [done |].
  apply andb_prop in H as [[_ ->]%andb_prop H]. by apply IH.
Qed.

Lemma Get_VARIANT_STYLES_good key : good_fragment (Get VARIANT_STYLES key) = true.
Proof.
  apply Get_good. intros k v H.
  by destruct (VARIANT_STYLES_fragment _ _ H) as (_ & _ & ?).
Qed.

Lemma Get_SIZE_STYLES_good key : good_fragment (Get SIZE_STYLES key) = true.
Proof.
  apply Get_good. intros k v H.
  by destruct (SIZE_STYLES_fragment _ _ H) as (_ & _ & ?).
Qed.

Lemma buttonClassName_joined variant size fullWidth className :
  is_symbol className = false →
  buttonClassName variant size fullWidth className
  = Normal (join_strings " " (kept_classes variant size fullWidth className)).
Proof.
  intros Hc. unfold buttonClassName. rewrite Array_join_filter.
  - do 2 f_equal. unfold classes, kept_classes. simpl.
    rewrite app_nil_r. do 3 f_equal. by destruct (ToBoolean fullWidth).
  - unfold classes. simpl.
    rewrite (good_fragment_not_symbol _ (Get_VARIANT_STYLES_good variant)).
    rewrite (good_fragment_not_symbol _ (Get_SIZE_STYLES_good size)).
    rewrite Hc. by destruct (ToBoolean fullWidth).
Qed.

Lemma buttonClassName_fragments (variant size : value) (fullWidth : bool)
    (className : string) :
  buttonClassName variant size (VBool fullWidth) (VStr className)
  = Normal (BASE_STYLES
            +:+ spaced (kept (Get VARIANT_STYLES variant))
            +:+ spaced (kept (Get SIZE_STYLES size))
            +:+ optional_classes fullWidth className).
Proof.
  rewrite buttonClassName_joined by done. f_equal.
  unfold kept_classes. rewrite join_strings_spaced, !spaced_app, kept_VStr.
  do 3 f_equal. simpl ToBoolean. unfold optional_classes.
  destruct fullWidth, (decide (className = "")); simpl;
    by rewrite ?append_empty_r.
Qed.

Lemma kept_own (obj : gmap string value) k s :
  obj !! k = Some (VStr s) → ToBoolean (VStr s) = true →
  spaced (kept (Get obj (VStr k))) = " " +:+ s.
Proof.
  intros Hk Hs. rewrite (Get_own _ _ _ Hk). unfold kept. rewrite Hs. simpl.
  by rewrite append_empty_r.
Qed.

Lemma kept_unrecognised (obj : gmap string value) names key :
  (∀ k, is_Some (obj !! k) ↔ k ∈ names) →
  unrecognised names key →
  spaced (kept (Get obj key)) = "".
Proof. intros Hdom Hu. by rewrite (Get_unrecognised _ _ _ Hdom Hu). Qed.

(** * The specification, claim by claim *)

(** ** Style resolution, recognised names *)

(** C1.  For a recognised variant and size the class string is the base
    fragment, the variant fragment read from [VARIANT_STYLES], the size
    fragment read from [SIZE_STYLES], ["w-full"] exactly when [fullWidth] is
    true, and [className] as given, in this order and one space apart; an
    empty [className] adds nothing. *)
Theorem buttonClassName_concatenation (variant size : string)
    (fullWidth : bool) (className : string) :
  variant ∈ variants →
  size ∈ sizes →
  ∃ vf sf,
    VARIANT_STYLES !! variant = Some (VStr vf) ∧
    SIZE_STYLES !! size = Some (VStr sf) ∧
    buttonClassName (VStr variant) (VStr size) (VBool fullWidth) (VStr className)
    = Normal (BASE_STYLES +:+ " " +:+ vf +:+ " " +:+ sf
              +:+ (if fullWidth then " w-full" else "")
              +:+ (if decide (className = "") then "" else " " +:+ className)).
Proof.
  intros Hv Hs.
  apply VARIANT_STYLES_dom in Hv as [v Hv].
  apply SIZE_STYLES_dom in Hs as [s Hs].
  destruct (VARIANT_STYLES_fragment _ _ Hv) as ([vf ->] & Hvt & _).
  destruct (SIZE_STYLES_fragment _ _ Hs) as ([sf ->] & Hst & _).
  exists vf, sf. split; [done |]. split; [done |].
  rewrite buttonClassName_fragments. unfold optional_classes.
  rewrite (kept_own _ _ _ Hv Hvt), (kept_own _ _ _ Hs Hst).
  by rewrite !append_assoc.
Qed.

(** The specification's own example: danger, large, full width, one extra
    class. *)
Lemma buttonClassName_concatenation_example :
  ∃ vf sf,
    VARIANT_STYLES !! "danger" = Some (VStr vf) ∧
    SIZE_STYLES !! "lg" = Some (VStr sf) ∧
    buttonClassName (VStr "danger") (VStr "lg") (VBool true) (VStr "m-2")
    = Normal (BASE_STYLES +:+ " " +:+ vf +:+ " " +:+ sf +:+ " w-full" +:+ " m-2").
Proof.
  apply (buttonClassName_concatenation "danger" "lg" true "m-2"); in_list.
Defined.

(** ** Disabled state *)

(** C2.  On booleans the disabled flag is [disabled || loading]: false when
    both are false, true otherwise; and this is the value of the element's
    [disabled] attribute, whatever else the props hold. *)
Theorem disabled_or_loading (d l : bool) :
  isDisabled (VBool d) (VBool l) = VBool (d || l) ∧
  isDisabled (VBool false) (VBool false) = VBool false ∧
  isDisabled (VBool true) (VBool false) = VBool true ∧
  isDisabled (VBool false) (VBool true) = VBool true ∧
  isDisabled (VBool true) (VBool true) = VBool true ∧
  ∀ history ref (p : gmap string value) el h',
    Button (renders_from mount history) ref
      (<["disabled" := VBool d]> (<["loading" := VBool l]> p))
    = Normal (el, h') →
    attributes el !! "disabled" = Some (VBool (d || l)).
Proof.
  split; [apply isDisabled_booleans |]. do 4 (split; [done |]).
  intros history ref p el h' HB.
  apply Button_Normal in HB as (s & _ & Heq).
  pose proof (outcome_computed_attributes ref
    (<["disabled" := VBool d]> (<["loading" := VBool l]> p)) s) as Hc.
  rewrite <- Heq in Hc. injection Hc as _ _ ->.
  rewrite lookup_insert_eq, lookup_insert_ne, lookup_insert_eq by done.
  simpl. by rewrite isDisabled_booleans.
Qed.

(** A loading button that was not disabled by its caller. *)
Lemma disabled_or_loading_example :
  ∃ el h',
    Button mount VNull
      (<["disabled" := VBool false]> (<["loading" := VBool true]> ∅))
    = Normal (el, h') ∧
    attributes el !! "disabled" = Some (VBool true).
Proof.
  eexists _, _. split; [reflexivity |].
  refine (proj2 (proj2 (proj2 (proj2 (proj2
    (disabled_or_loading false true))))) [] VNull ∅ _ _ _).
  reflexivity.
Defined.

(** ** Composed content *)

(** C3, as the claim states it, fails: while loading the children are still
    rendered after the spinner. *)
Lemma loading_content_is_not_spinner_alone :
  (composed ∘ fst) <$>
    Button mount VNull (<["loading" := VBool true]> {["children" := VStr "Save"]})
  = Normal [Spinner; span (VStr "Save")] ∧
  content (VBool true) VNull (VStr "Save") VNull ≠ [Spinner].
Proof. split; [by vm_compute | discriminate]. Qed.

(** C3, amended.  While loading the composed content is the spinner
    followed by the children.  Otherwise it is the left icon if present,
    the children, the right icon if present; an absent icon leaves
    nothing.  This is the content of the element a render returns. *)
Theorem content_slots :
  (∀ leftIcon children rightIcon,
     content (VBool true) leftIcon children rightIcon
     = [Spinner; span children]) ∧
  (∀ leftIcon children rightIcon,
     present leftIcon ∨ absent leftIcon →
     present rightIcon ∨ absent rightIcon →
     content (VBool false) leftIcon children rightIcon
     = icon_slot leftIcon ++ [span children] ++ icon_slot rightIcon) ∧
  (∀ history ref (p : gmap string value) el h',
     Button (renders_from mount history) ref p = Normal (el, h') →
     composed el
     = content (or_default (p !! "loading") (VBool false))
         (or_default (p !! "leftIcon") VNull)
         (default VUndefined (p !! "children"))
         (or_default (p !! "rightIcon") VNull)).
Proof.
  split; [apply content_loading |]. split; [apply content_idle |].
  intros history ref p el h' HB.
  apply Button_Normal in HB as (s & _ & Heq).
  rewrite <- (outcome_composed ref p s), <- Heq. done.
Qed.

(** A left icon and no right icon. *)
Lemma content_slots_example :
  content (VBool false) (VObject 1) (VStr "Save") VNull
  = [span (VObject 1); span (VStr "Save")].
Proof.
  refine (proj1 (proj2 content_slots) (VObject 1) (VStr "Save") VNull _ _).
  - left. reflexivity.
  - right. left. reflexivity.
Defined.

(** C4.  While loading, the composed content holds nothing but the spinner
    and the children, and the content of the rendered element is the same
    whatever [leftIcon] and [rightIcon] are passed. *)
Theorem icons_suppressed_while_loading :
  (∀ leftIcon children rightIcon,
     Forall (λ n, n = Spinner ∨ n = span children)
       (content (VBool true) leftIcon children rightIcon)) ∧
  (∀ history ref (p : gmap string value) leftIcon rightIcon,
     p !! "loading" = Some (VBool true) →
     (composed ∘ fst) <$>
       Button (renders_from mount history) ref
         (<["leftIcon" := leftIcon]> (<["rightIcon" := rightIcon]> p))
     = (composed ∘ fst) <$> Button (renders_from mount history) ref p).
Proof.
  split.
  - intros leftIcon children rightIcon. rewrite content_loading.
    constructor; [by left |]. constructor; [by right |]. constructor.
  - intros history ref p leftIcon rightIcon Hl.
    rewrite !Button_history, !completion_fmap_compose.
    unfold resolved. rewrite !lookup_insert_ne by done.
    apply completion_fmap_ext. intros s. unfold compose.
    rewrite !outcome_composed.
    rewrite !(lookup_insert_ne _ _ "loading") by done.
    rewrite !(lookup_insert_ne _ _ "children") by done.
    rewrite Hl. simpl or_default. by rewrite !content_loading.
Qed.

(** Two icons passed to a loading button change nothing. *)
Lemma icons_suppressed_while_loading_example :
  (composed ∘ fst) <$>
    Button mount VNull
      (<["leftIcon" := VObject 1]> (<["rightIcon" := VObject 2]>
        (<["loading" := VBool true]> {["children" := VStr "Save"]})))
  = (composed ∘ fst) <$>
      Button mount VNull
        (<["loading" := VBool true]> {["children" := VStr "Save"]}).
Proof.
  refine (proj2 icons_suppressed_while_loading [] VNull
    (<["loading" := VBool true]> {["children" := VStr "Save"]})
    (VObject 1) (VObject 2) _).
  reflexivity.
Defined.

(** C5.  Not loading and with both icons present, the composed content is
    the left icon, then the children, then the right icon. *)
Theorem content_both_icons :
  (∀ leftIcon children rightIcon,
     present leftIcon →
     present rightIcon →
     content (VBool false) leftIcon children rightIcon
     = [span leftIcon; span children; span rightIcon]) ∧
  (∀ history ref (p : gmap string value) leftIcon rightIcon el h',
     present leftIcon →
     present rightIcon →
     Button (renders_from mount history) ref
       (<["loading" := VBool false]>
         (<["leftIcon" := leftIcon]> (<["rightIcon" := rightIcon]> p)))
     = Normal (el, h') →
     composed el
     = [span leftIcon; span (default VUndefined (p !! "children"));
        span rightIcon]).
Proof.
  assert (∀ leftIcon children rightIcon,
    present leftIcon → present rightIcon →
    content (VBool false) leftIcon children rightIcon
    = [span leftIcon; span children; span rightIcon]) as Hcontent.
  { intros l c r Hl Hr. rewrite content_idle by auto.
    by rewrite !icon_slot_present. }
  split; [exact Hcontent |].
  intros history ref p l r el h' Hl Hr HB.
  apply Button_Normal in HB as (s & _ & Heq).
  rewrite <- (Hcontent l _ r Hl Hr).
  replace el with (el, h').1 by done. rewrite Heq, outcome_composed.
  rewrite lookup_insert_eq.
  rewrite (lookup_insert_ne _ "loading" "leftIcon"), lookup_insert_eq by done.
  rewrite !(lookup_insert_ne _ _ "rightIcon"), lookup_insert_eq by done.
  rewrite !(lookup_insert_ne _ _ "children") by done.
  assert (∀ v, present v → or_default (Some v) VNull = v) as Hd.
  { intros v Hv. by destruct v. }
  by rewrite !Hd.
Qed.

(** Two icon elements around a label. *)
Lemma content_both_icons_example :
  ∃ el h',
    Button mount VNull
      (<["loading" := VBool false]>
        (<["leftIcon" := VObject 1]> (<["rightIcon" := VObject 2]>
          {["children" := VStr "Save"]})))
    = Normal (el, h') ∧
    composed el = [span (VObject 1); span (VStr "Save"); span (VObject 2)].
Proof.
  eexists _, _. split; [reflexivity |].
  refine (proj2 content_both_icons [] VNull {["children" := VStr "Save"]}
    (VObject 1) (VObject 2) _ _ _ _ _); reflexivity.
Defined.

(** ** Separators in the class string *)

(** C6, as the claim states it, fails: [className] is joined as it is given,
    so its own stray spaces reach the class string. *)
Lemma className_spaces_survive :
  buttonClassName (VStr "primary") (VStr "md") (VBool false) (VStr "p-1  m-2 ")
  = Normal
      (BASE_STYLES
       +:+ " bg-blue-600 text-white hover:bg-blue-700 focus:ring-blue-500 active:bg-blue-800"
       +:+ " px-4 py-2 text-base gap-2"
       +:+ " p-1  m-2 ") ∧
  tidy <$> buttonClassName (VStr "primary") (VStr "md") (VBool false)
             (VStr "p-1  m-2 ")
  = Normal false.
Proof. split; by vm_compute. Qed.

(** C6, amended.  Falsy array elements are dropped before the join, so the
    join itself puts exactly one space between two fragments and none at
    either end: when [className] is empty or has no stray whitespace of its
    own, the class string has no empty token, whatever the variant and the
    size are.  For a recognised variant and size the tokens of the class
    string start with those of the base fragment, of the variant fragment
    and of the size fragment, in this order. *)
Theorem buttonClassName_tidy :
  (∀ (variant size fullWidth : value) (className : string),
     className = "" ∨ tidy className = true →
     ∃ s,
       buttonClassName variant size fullWidth (VStr className) = Normal s ∧
       tidy s = true) ∧
  (∀ (variant size : string) (fullWidth : bool) (className : string),
     variant ∈ variants →
     size ∈ sizes →
     ∃ vf sf s rest,
       VARIANT_STYLES !! variant = Some (VStr vf) ∧
       SIZE_STYLES !! size = Some (VStr sf) ∧
       buttonClassName (VStr variant) (VStr size) (VBool fullWidth)
         (VStr className) = Normal s ∧
       tokens s = tokens BASE_STYLES ++ tokens vf ++ tokens sf ++ rest).
Proof.
  split.
  - intros variant size fullWidth className Hc.
    eexists. split; [by apply buttonClassName_joined |].
    unfold kept_classes. rewrite tidy_join. simpl forallb.
    rewrite !forallb_app.
    rewrite (good_fragment_tidy _ (Get_VARIANT_STYLES_good variant)).
    rewrite (good_fragment_tidy _ (Get_SIZE_STYLES_good size)).
    rewrite kept_VStr.
    assert (forallb tidy (if ToBoolean fullWidth then ["w-full"] else []) = true)
      as -> by by destruct (ToBoolean fullWidth).
    destruct Hc as [-> | Hc]; [done |].
    destruct (decide (className = "")); [done |]. simpl. by rewrite Hc.
  - intros variant size fullWidth className Hv Hs.
    apply VARIANT_STYLES_dom in Hv as [v Hv].
    apply SIZE_STYLES_dom in Hs as [s Hs].
    destruct (VARIANT_STYLES_fragment _ _ Hv) as ([vf ->] & Hvt & _).
    destruct (SIZE_STYLES_fragment _ _ Hs) as ([sf ->] & Hst & _).
    exists vf, sf. eexists.
    exists (concat (tokens <$>
              (if fullWidth then ["w-full"] else []) ++ kept (VStr className))).
    split; [done |]. split; [done |].
    split; [by apply buttonClassName_joined |].
    unfold kept_classes. rewrite tokens_join.
    rewrite (Get_own _ _ _ Hv), (Get_own _ _ _ Hs).
    unfold kept at 1 2. rewrite Hvt, Hst. reflexivity.
Qed.

(** An unknown variant leaves one space, not two, between its
    neighbours. *)
Lemma buttonClassName_tidy_example :
  ∃ s,
    buttonClassName (VStr "unknown-value") (VStr "md") (VBool true) (VStr "m-2")
    = Normal s ∧
    tidy s = true.
Proof.
  apply (proj1 buttonClassName_tidy
           (VStr "unknown-value") (VStr "md") (VBool true) "m-2").
  right. reflexivity.
Defined.

(** ** Values outside the recognised names *)

(** C7, as the claim states it, fails: ["constructor"] is not a recognised
    variant, yet the table read finds the member every object inherits, and
    its text takes the place of the variant fragment. *)
Lemma inherited_name_is_not_absent :
  ("constructor" ∉ variants) ∧
  buttonClassName (VStr "constructor") (VStr "md") (VBool false) (VStr "")
  = Normal
      (BASE_STYLES
       +:+ " function Object() { [native code] }"
       +:+ " px-4 py-2 text-base gap-2") ∧
  buttonClassName (VStr "constructor") (VStr "md") (VBool false) (VStr "")
  ≠ Normal (BASE_STYLES +:+ " px-4 py-2 text-base gap-2").
Proof.
  split; [| split].
  - apply (bool_decide_unpack _). by vm_compute.
  - by vm_compute.
  - by vm_compute.
Qed.

(** C7, amended.  A [variant] or [size] that is neither a recognised name
    nor a name inherited from [Object.prototype] contributes no fragment:
    the computation does not throw, no default fragment stands in, and the
    fragments that remain are joined as usual. *)
Theorem unrecognised_names_are_dropped (fullWidth : bool) (className : string) :
  (∀ (variant : value) (size sf : string),
     unrecognised variants variant →
     SIZE_STYLES !! size = Some (VStr sf) →
     buttonClassName variant (VStr size) (VBool fullWidth) (VStr className)
     = Normal (BASE_STYLES +:+ " " +:+ sf
               +:+ optional_classes fullWidth className)) ∧
  (∀ (variant vf : string) (size : value),
     unrecognised sizes size →
     VARIANT_STYLES !! variant = Some (VStr vf) →
     buttonClassName (VStr variant) size (VBool fullWidth) (VStr className)
     = Normal (BASE_STYLES +:+ " " +:+ vf
               +:+ optional_classes fullWidth className)) ∧
  (∀ (variant size : value),
     unrecognised variants variant →
     unrecognised sizes size →
     buttonClassName variant size (VBool fullWidth) (VStr className)
     = Normal (BASE_STYLES +:+ optional_classes fullWidth className)).
Proof.
  repeat split.
  - intros variant size sf Hv Hs.
    destruct (SIZE_STYLES_fragment _ _ Hs) as (_ & Hst & _).
    rewrite buttonClassName_fragments.
    rewrite (kept_unrecognised _ _ _ VARIANT_STYLES_dom Hv).
    rewrite (kept_own _ _ _ Hs Hst).
    by rewrite !append_assoc.
  - intros variant vf size Hs Hv.
    destruct (VARIANT_STYLES_fragment _ _ Hv) as (_ & Hvt & _).
    rewrite buttonClassName_fragments.
    rewrite (kept_unrecognised _ _ _ SIZE_STYLES_dom Hs).
    rewrite (kept_own _ _ _ Hv Hvt).
    by rewrite !append_assoc.
  - intros variant size Hv Hs.
    rewrite buttonClassName_fragments.
    rewrite (kept_unrecognised _ _ _ VARIANT_STYLES_dom Hv).
    by rewrite (kept_unrecognised _ _ _ SIZE_STYLES_dom Hs).
Qed.

(** An unknown variant with every other prop at its default. *)
Lemma unrecognised_names_are_dropped_example :
  buttonClassName (VStr "unknown-value") (VStr "md") (VBool false) (VStr "")
  = Normal (BASE_STYLES +:+ " " +:+ "px-4 py-2 text-base gap-2"
            +:+ optional_classes false "").
Proof.
  refine (proj1 (unrecognised_names_are_dropped false "")
            (VStr "unknown-value") "md" "px-4 py-2 text-base gap-2" _ _).
  - intros k [= <-]. split; apply (bool_decide_unpack _); vm_compute; exact I.
  - reflexivity.
Defined.

(** ** Parameter defaults *)

Ltac default_case p k d :=
  unfold Button;
  rewrite (rest_props_delete_insert p k d) by in_list;
  rewrite lookup_delete_eq, lookup_insert_eq;
  rewrite !lookup_delete_ne, !lookup_insert_ne by done;
  reflexivity.

(** C8.  Leaving out a defaulted prop gives the same render as passing its
    default: [variant="primary"], [size="md"], [fullWidth=false],
    [loading=false], [disabled=false], [leftIcon=null], [rightIcon=null],
    [className=""], [type="button"]. *)
Theorem defaults_applied (h : hooks) (ref : value) (p : gmap string value) :
  Forall
    (λ kd : string * value,
       Button h ref (delete kd.1 p) = Button h ref (<[kd.1 := kd.2]> p))
    [ ("variant", VStr "primary");
      ("size", VStr "md");
      ("fullWidth", VBool false);
      ("loading", VBool false);
      ("disabled", VBool false);
      ("leftIcon", VNull);
      ("rightIcon", VNull);
      ("className", VStr "");
      ("type", VStr "button") ].
Proof.
  repeat
    (constructor;
     [ match goal with
       | |- Button _ _ (delete (?k, ?d).1 _) = _ => simpl; default_case p k d
       end |]).
  constructor.
Qed.

(** ** Determinism of style resolution *)

(** C9.  Two renders whose [variant], [size], [fullWidth] and [className]
    props agree carry the same class string, whatever was rendered before
    on either side; the string is the one the unmemoised computation gives;
    and a render leaves nothing behind that a later render can observe. *)
Theorem style_resolution_deterministic
    (history1 history2 : list (value * gmap string value))
    (ref1 ref2 : value) (p1 p2 : gmap string value) :
  (∀ k, k ∈ ["variant"; "size"; "fullWidth"; "className"] → p1 !! k = p2 !! k) →
  className_of <$> Button (renders_from mount history1) ref1 p1
  = className_of <$> Button (renders_from mount history2) ref2 p2 ∧
  className_of <$> Button (renders_from mount history1) ref1 p1
  = (Some ∘ VStr) <$>
      buttonClassName (or_default (p1 !! "variant") (VStr "primary"))
        (or_default (p1 !! "size") (VStr "md"))
        (or_default (p1 !! "fullWidth") (VBool false))
        (or_default (p1 !! "className") (VStr "")) ∧
  (∀ rp,
     Button (after_render (renders_from mount history1) rp) ref1 p1
     = Button (renders_from mount history1) ref1 p1).
Proof.
  intros Hp.
  assert (∀ history ref p,
    className_of <$> Button (renders_from mount history) ref p
    = (Some ∘ VStr) <$> resolved p) as Hpure.
  { intros history ref p.
    rewrite Button_history, completion_fmap_compose.
    apply completion_fmap_ext. intros s.
    pose proof (outcome_computed_attributes ref p s) as Hc.
    by injection Hc as _ Hc _. }
  split; [| split].
  - rewrite !Hpure. unfold resolved. by rewrite !Hp by in_list.
  - apply Hpure.
  - intros rp.
    rewrite (Button_memo_transparent (after_render _ _)) by auto.
    by rewrite (Button_memo_transparent (renders_from _ _)) by auto.
Qed.

(** A re-render with a click handler and a first render of another
    instance, both of size [lg]. *)
Lemma style_resolution_deterministic_example :
  className_of <$>
    Button
      (renders_from mount [(VNull, {["variant" := VStr "danger"]})])
      VNull (<["onClick" := VFunction 20 "() => save()"]> {["size" := VStr "lg"]})
  = className_of <$> Button mount (VObject 3) {["size" := VStr "lg"]}.
Proof.
  refine (proj1 (style_resolution_deterministic
    [(VNull, {["variant" := VStr "danger"]})] [] VNull (VObject 3)
    (<["onClick" := VFunction 20 "() => save()"]> {["size" := VStr "lg"]})
    {["size" := VStr "lg"]} _)).
  intros k Hk. rewrite lookup_insert_ne; [done |].
  intros <-. revert Hk. in_list.
Defined.

(** ** Passthrough props *)

(** C10.  The [type], [className] and [disabled] attributes of the element
    are the values the component computed, and two renders whose named
    props agree carry the same three attributes whatever else their props
    hold. *)
Theorem passthrough_cannot_override
    (history1 history2 : list (value * gmap string value))
    (ref1 ref2 : value) (p1 p2 : gmap string value) :
  (∀ k, k ∈ named_props → p1 !! k = p2 !! k) →
  computed_attributes <$> Button (renders_from mount history1) ref1 p1
  = computed_attributes <$> Button (renders_from mount history2) ref2 p2 ∧
  computed_attributes <$> Button (renders_from mount history1) ref1 p1
  = (λ s,
       (Some (or_default (p1 !! "type") (VStr "button")),
        Some (VStr s),
        Some (isDisabled (or_default (p1 !! "disabled") (VBool false))
                (or_default (p1 !! "loading") (VBool false)))))
    <$> buttonClassName (or_default (p1 !! "variant") (VStr "primary"))
          (or_default (p1 !! "size") (VStr "md"))
          (or_default (p1 !! "fullWidth") (VBool false))
          (or_default (p1 !! "className") (VStr "")).
Proof.
  intros Hp.
  assert (∀ history ref p,
    computed_attributes <$> Button (renders_from mount history) ref p
    = (λ s,
         (Some (or_default (p !! "type") (VStr "button")),
          Some (VStr s),
          Some (isDisabled (or_default (p !! "disabled") (VBool false))
                  (or_default (p !! "loading") (VBool false)))))
      <$> resolved p) as Hpure.
  { intros history ref p.
    rewrite Button_history, completion_fmap_compose.
    apply completion_fmap_ext. intros s.
    apply outcome_computed_attributes. }
  split; [| apply Hpure].
  rewrite !Hpure. unfold resolved. by rewrite !Hp by in_list.
Qed.

(** Two different passthrough props next to the same named ones. *)
Lemma passthrough_cannot_override_example :
  computed_attributes <$>
    Button mount VNull
      (<["disabled" := VStr "no"]> (<["className" := VStr "m-2"]>
        {["aria-disabled" := VBool false]}))
  = computed_attributes <$>
      Button mount VNull
        (<["disabled" := VStr "no"]> (<["className" := VStr "m-2"]>
          {["onClick" := VFunction 20 "() => save()"]})).
Proof.
  refine (proj1 (passthrough_cannot_override [] [] VNull VNull
    (<["disabled" := VStr "no"]> (<["className" := VStr "m-2"]>
       {["aria-disabled" := VBool false]}))
    (<["disabled" := VStr "no"]> (<["className" := VStr "m-2"]>
       {["onClick" := VFunction 20 "() => save()"]})) _)).
  intros k Hk.
  destruct (decide (k = "disabled")) as [-> | H1]; [done |].
  rewrite !(lookup_insert_ne _ "disabled") by done.
  destruct (decide (k = "className")) as [-> | H2]; [done |].
  rewrite !(lookup_insert_ne _ "className") by done.
  rewrite !lookup_singleton_ne; [done | |]; intros <-; revert Hk; in_list.
Defined.

(** * Further properties of the component *)

(** ** More on strings and joins *)

Lemma append_cons c (s t : string) : String c s +:+ t = String c (s +:+ t).
Proof. reflexivity. Qed.

Lemma append_inj_l (a x y : string) : a +:+ x = a +:+ y → x = y.
Proof.
  induction a as [| c a IH]; [done |].
  rewrite !append_cons. intros [= H]. by apply IH.
Qed.

Lemma append_length (a b : string) :
  String.length (a +:+ b) = String.length a + String.length b.
Proof.
  induction a as [| c a IH]; [done |].
  rewrite append_cons. simpl. by rewrite IH.
Qed.

Lemma append_inj_r (t x y : string) : x +:+ t = y +:+ t → x = y.
Proof.
  revert y. induction x as [| c x IH]; intros [| d y] H.
  - done.
  - apply (f_equal String.length) in H.
    rewrite !append_length in H. simpl in H. lia.
  - apply (f_equal String.length) in H.
    rewrite !append_length in H. simpl in H. lia.
  - rewrite !append_cons in H. injection H as -> H. f_equal. by apply IH.
Qed.

(** The text the join produces when no element is a symbol. *)
Lemma mapM_element_text (l : list value) :
  forallb (λ v, negb (is_symbol v)) l = true →
  mapM element_text (List.filter ToBoolean l) = Normal (l ≫= kept).
Proof.
  intros Hl. induction l as [| v l IH]; simpl; [done |].
  simpl in Hl. apply andb_prop in Hl as [Hv Hl].
  unfold kept at 1.
  destruct (ToBoolean v) eqn:Hb; simpl; [| by apply IH].
  rewrite (IH Hl). by destruct v as [| | [] | | | | | | |].
Qed.

(** A symbol at the end of the array makes the join throw. *)
Lemma mapM_element_text_symbol (l : list value) r :
  forallb (λ v, negb (is_symbol v)) l = true →
  mapM element_text (List.filter ToBoolean (l ++ [VSymbol r]))
  = Throw "TypeError: Cannot convert a Symbol value to a string".
Proof.
  intros Hl. induction l as [| v l IH]; simpl; [done |].
  simpl in Hl. apply andb_prop in Hl as [Hv Hl].
  destruct (ToBoolean v) eqn:Hb; simpl; [| by apply IH].
  rewrite (IH Hl). by destruct v as [| | [] | | | | | | |].
Qed.

Lemma classes_not_symbol variant size fullWidth :
  forallb (λ v, negb (is_symbol v))
    [ VStr BASE_STYLES; Get VARIANT_STYLES variant; Get SIZE_STYLES size;
      if ToBoolean fullWidth then VStr "w-full" else VStr "" ] = true.
Proof.
  simpl.
  rewrite (good_fragment_not_symbol _ (Get_VARIANT_STYLES_good variant)).
  rewrite (good_fragment_not_symbol _ (Get_SIZE_STYLES_good size)).
  by destruct (ToBoolean fullWidth).
Qed.

Lemma buttonClassName_symbol variant size fullWidth r :
  buttonClassName variant size fullWidth (VSymbol r)
  = Throw "TypeError: Cannot convert a Symbol value to a string".
Proof.
  unfold buttonClassName, Array_join, classes.
  change [ VStr BASE_STYLES; Get VARIANT_STYLES variant; Get SIZE_STYLES size;
           if ToBoolean fullWidth then VStr "w-full" else VStr "";
           VSymbol r ]
    with ([ VStr BASE_STYLES; Get VARIANT_STYLES variant; Get SIZE_STYLES size;
            if ToBoolean fullWidth then VStr "w-full" else VStr "" ]
          ++ [VSymbol r]).
  by rewrite mapM_element_text_symbol by apply classes_not_symbol.
Qed.

(** The class string of any input that is not a symbol [className]. *)
Lemma buttonClassName_spaced variant size fullWidth className :
  is_symbol className = false →
  buttonClassName variant size fullWidth className
  = Normal (BASE_STYLES
            +:+ spaced (kept (Get VARIANT_STYLES variant))
            +:+ spaced (kept (Get SIZE_STYLES size))
            +:+ spaced (if ToBoolean fullWidth then ["w-full"] else [])
            +:+ spaced (kept className)).
Proof.
  intros Hc. rewrite buttonClassName_joined by done. f_equal.
  unfold kept_classes. by rewrite join_strings_spaced, !spaced_app.
Qed.

Lemma is_symbol_spec v : is_symbol v = true ↔ ∃ r, v = VSymbol r.
Proof.
  split; [| by intros [r ->]].
  destruct v; try done. eauto.
Qed.

(** ** What reaches the element *)

Lemma outcome_attribute ref (p : gmap string value) s el h' :
  (el, h') = outcome ref p s →
  attributes el
  = rest_props p ∪
    <["ref" := ref]> (<["type" := or_default (p !! "type") (VStr "button")]>
      (<["className" := VStr s]>
        (<["disabled" :=
             isDisabled (or_default (p !! "disabled") (VBool false))
               (or_default (p !! "loading") (VBool false))]> ∅))).
Proof. by intros [= -> _]. Qed.

(** X1.  Every prop the parameter pattern does not name reaches the element
    with the value the caller gave it, and apart from [ref] no such
    attribute appears unless the caller passed it. *)
Theorem passthrough_forwarded history ref (p : gmap string value) el h' k :
  k ∉ named_props →
  Button (renders_from mount history) ref p = Normal (el, h') →
  (∀ v, p !! k = Some v → attributes el !! k = Some v) ∧
  (k ≠ "ref" → attributes el !! k = p !! k).
Proof.
  intros Hk HB. apply Button_Normal in HB as (s & _ & Heq).
  rewrite (outcome_attribute _ _ _ _ _ Heq).
  split.
  - intros v Hv. apply lookup_union_Some_l. by rewrite rest_props_other.
  - intros Hr.
    assert (k ≠ "type" ∧ k ≠ "className" ∧ k ≠ "disabled") as (H1 & H2 & H3).
    { repeat split; intros ->; apply Hk; in_list. }
    destruct (p !! k) as [v |] eqn:Hv.
    + apply lookup_union_Some_l. by rewrite rest_props_other.
    + rewrite lookup_union_r by by rewrite rest_props_other.
      by rewrite !lookup_insert_ne.
Qed.

(** A click handler and no [title]. *)
Lemma passthrough_forwarded_example :
  ∃ el h',
    Button mount VNull {["onClick" := VFunction 20 "() => save()"]}
    = Normal (el, h') ∧
    attributes el !! "onClick" = Some (VFunction 20 "() => save()").
Proof.
  eexists _, _. split; [reflexivity |].
  refine (proj1 (passthrough_forwarded [] VNull
    {["onClick" := VFunction 20 "() => save()"]} _ _ "onClick" _ _) _ _).
  - in_list.
  - reflexivity.
  - reflexivity.
Defined.

(** X2.  The props the component consumes itself are never set on the
    element: no [variant], [size], [fullWidth], [loading], [leftIcon],
    [rightIcon] or [children] attribute, whatever the caller passed. *)
Theorem consumed_props_not_forwarded history ref (p : gmap string value) el h' :
  Button (renders_from mount history) ref p = Normal (el, h') →
  Forall (λ k, attributes el !! k = None)
    [ "variant"; "size"; "fullWidth"; "loading"; "leftIcon"; "rightIcon";
      "children" ].
Proof.
  intros HB. apply Button_Normal in HB as (s & _ & Heq).
  rewrite (outcome_attribute _ _ _ _ _ Heq).
  repeat
    (constructor;
     [ rewrite lookup_union_r by (apply rest_props_named; in_list);
       by rewrite !lookup_insert_ne |]).
  constructor.
Qed.

(** A loading danger button with an icon. *)
Lemma consumed_props_not_forwarded_example :
  ∃ el h',
    Button mount VNull
      (<["variant" := VStr "danger"]> (<["loading" := VBool true]>
        {["leftIcon" := VObject 1]}))
    = Normal (el, h') ∧
    attributes el !! "variant" = None.
Proof.
  eexists _, _. split; [reflexivity |].
  refine (Forall_inv (consumed_props_not_forwarded [] VNull
    (<["variant" := VStr "danger"]> (<["loading" := VBool true]>
      {["leftIcon" := VObject 1]})) _ _ _)).
  reflexivity.
Defined.

(** X3.  The forwarded ref is set on the element as its [ref], unless the
    props themselves carry a [ref] key, which the spread then puts in its
    place. *)
Theorem ref_forwarded history ref (p : gmap string value) el h' :
  Button (renders_from mount history) ref p = Normal (el, h') →
  attributes el !! "ref" = Some (default ref (p !! "ref")).
Proof.
  intros HB. apply Button_Normal in HB as (s & _ & Heq).
  rewrite (outcome_attribute _ _ _ _ _ Heq).
  assert ("ref" ∉ named_props) as Hr.
  { intros H. revert H. in_list. }
  destruct (p !! "ref") as [v |] eqn:Hv; simpl.
  - apply lookup_union_Some_l. by rewrite rest_props_other.
  - rewrite lookup_union_r by by rewrite rest_props_other.
    by rewrite lookup_insert_eq.
Qed.

(** A ref object handed to a default button. *)
Lemma ref_forwarded_example :
  ∃ el h',
    Button mount (VObject 3) ∅ = Normal (el, h') ∧
    attributes el !! "ref" = Some (VObject 3).
Proof.
  eexists _, _. split; [reflexivity |].
  refine (ref_forwarded [] (VObject 3) ∅ _ _ _). reflexivity.
Defined.

(** ** When a render throws *)



(** ** Props passed as [undefined] *)

Ltac undefined_case p k :=
  unfold Button;
  rewrite <- (rest_props_delete_insert p k VUndefined) by in_list;
  rewrite lookup_delete_eq, lookup_insert_eq;
  rewrite ?lookup_delete_ne, ?lookup_insert_ne by done;
  reflexivity.

(** X5.  Passing [undefined] for a named prop is the same as leaving it
    out, for each of the ten named props. *)
Theorem undefined_is_absent (h : hooks) (ref : value) (p : gmap string value) :
  Forall (λ k, Button h ref (<[k := VUndefined]> p) = Button h ref (delete k p))
    [ "variant"; "size"; "fullWidth"; "loading"; "disabled"; "leftIcon";
      "rightIcon"; "children"; "className"; "type" ].
Proof.
  repeat
    (constructor;
     [ match goal with
       | |- Button _ _ (<[?k := _]> _) = _ => undefined_case p k
       end |]).
  constructor.
Qed.

(** ** Props that are not booleans *)

(** X6.  [disabled || loading] is one of its two operands, not a coerced
    boolean, and it is truthy exactly when one of them is; so a button
    whose [loading] prop is truthy always carries a truthy [disabled]
    attribute. *)
Theorem disabled_truthiness :
  (∀ disabled loading,
     isDisabled disabled loading = disabled ∨
     isDisabled disabled loading = loading) ∧
  (∀ disabled loading,
     ToBoolean (isDisabled disabled loading)
     = ToBoolean disabled || ToBoolean loading) ∧
  (∀ history ref (p : gmap string value) el h',
     ToBoolean (or_default (p !! "loading") (VBool false)) = true →
     Button (renders_from mount history) ref p = Normal (el, h') →
     ∃ v, attributes el !! "disabled" = Some v ∧ ToBoolean v = true).
Proof.
  assert (∀ disabled loading,
    ToBoolean (isDisabled disabled loading)
    = ToBoolean disabled || ToBoolean loading) as Hor.
  { intros d l. unfold isDisabled, js_or.
    by destruct (ToBoolean d) eqn:Hd; rewrite ?Hd. }
  split; [| split; [exact Hor |]].
  - intros d l. unfold isDisabled, js_or. destruct (ToBoolean d); auto.
  - intros history ref p el h' Hl HB.
    apply Button_Normal in HB as (s & _ & Heq).
    pose proof (outcome_computed_attributes ref p s) as Hc.
    rewrite <- Heq in Hc. injection Hc as _ _ ->.
    eexists. split; [done |]. rewrite Hor, Hl. apply orb_true_r.
Qed.

(** A string for [disabled] and a number for [loading]. *)
Lemma disabled_truthiness_example :
  ∃ el h',
    Button mount VNull
      (<["disabled" := VStr ""]> {["loading" := VNum 1]})
    = Normal (el, h') ∧
    ∃ v, attributes el !! "disabled" = Some v ∧ ToBoolean v = true.
Proof.
  eexists _, _. split; [reflexivity |].
  refine (proj2 (proj2 disabled_truthiness) [] VNull
    (<["disabled" := VStr ""]> {["loading" := VNum 1]}) _ _ _ _);
    reflexivity.
Defined.

Lemma rendered_cons n ns :
  rendered (n :: ns) = (if renders n then [n] else []) ++ rendered ns.
Proof. unfold rendered. simpl. by destruct (renders n). Qed.

Lemma and_node_renders cond el :
  renders el = true →
  (if renders (and_node cond el) then [and_node cond el] else [])
  = if ToBoolean cond then [el]
    else if renders (Raw cond) then [Raw cond] else [].
Proof. intros He. unfold and_node. destruct (ToBoolean cond); by rewrite ?He. Qed.

(** X7.  Whatever the type of [loading]: when it is truthy the content is
    the spinner followed by the children; the children are in the content
    in every case; and the spinner is there exactly when [loading] is
    truthy. *)
Theorem content_any_loading (loading leftIcon children rightIcon : value) :
  (ToBoolean loading = true →
   content loading leftIcon children rightIcon = [Spinner; span children]) ∧
  span children ∈ content loading leftIcon children rightIcon ∧
  (Spinner ∈ content loading leftIcon children rightIcon
   ↔ ToBoolean loading = true).
Proof.
  unfold content, button_children.
  rewrite !rendered_cons, !and_node_renders by done.
  unfold js_and, js_not. change (rendered []) with (@nil node).
  change (renders (span children)) with true. cbv iota.
  destruct (ToBoolean loading) eqn:Hl.
  - change (ToBoolean (VBool (negb true))) with false. cbv iota.
    change (renders (Raw (VBool (negb true)))) with false. cbv iota.
    repeat split; try done; intros; apply list_elem_of_In; simpl; auto.
  - change (ToBoolean (VBool (negb false))) with true. cbv iota.
    split; [done |].
    destruct (ToBoolean leftIcon), (ToBoolean rightIcon),
      (renders (Raw loading)), (renders (Raw leftIcon)),
      (renders (Raw rightIcon));
      (split; [apply list_elem_of_In; simpl; auto 10 |]);
      (split; [| done]); intros H; exfalso;
      apply list_elem_of_In in H; simpl in H;
      repeat (destruct H as [H | H]; [discriminate H |]); done.
Qed.

(** A non-empty string as [loading]. *)
Lemma content_any_loading_example :
  content (VStr "yes") (VObject 1) (VStr "Save") (VObject 2)
  = [Spinner; span (VStr "Save")].
Proof.
  refine (proj1 (content_any_loading (VStr "yes") (VObject 1) (VStr "Save")
                   (VObject 2)) _).
  reflexivity.
Defined.

(** ** The two ends of the class string *)

(** X8.  Whatever the props are, a class string that is produced starts
    with the base fragment; and a non-empty [className] string is its end,
    after one space. *)
Theorem class_string_ends :
  (∀ variant size fullWidth className s,
     buttonClassName variant size fullWidth className = Normal s →
     ∃ rest, s = BASE_STYLES +:+ rest) ∧
  (∀ variant size fullWidth (className : string),
     className ≠ "" →
     ∃ middle,
       buttonClassName variant size fullWidth (VStr className)
       = Normal (BASE_STYLES +:+ middle +:+ " " +:+ className)).
Proof.
  split.
  - intros variant size fullWidth className s.
    destruct (is_symbol className) eqn:Hc.
    + apply is_symbol_spec in Hc as [r ->].
      by rewrite buttonClassName_symbol.
    + rewrite buttonClassName_spaced by done. intros [= <-]. by eexists.
  - intros variant size fullWidth className Hc.
    exists (spaced (kept (Get VARIANT_STYLES variant))
            +:+ spaced (kept (Get SIZE_STYLES size))
            +:+ spaced (if ToBoolean fullWidth then ["w-full"] else [])).
    rewrite buttonClassName_spaced by done.
    rewrite kept_VStr, decide_False by done. simpl spaced at 4.
    by rewrite append_empty_r, !append_assoc.
Qed.

(** An unknown size, a truthy number for [fullWidth], one extra class. *)
Lemma class_string_ends_example :
  ∃ middle,
    buttonClassName (VStr "ghost") (VStr "huge") (VNum 1) (VStr "m-2")
    = Normal (BASE_STYLES +:+ middle +:+ " " +:+ "m-2").
Proof.
  refine (proj2 class_string_ends (VStr "ghost") (VStr "huge") (VNum 1)
            "m-2" _).
  discriminate.
Defined.

(** ** Re-rendering *)

(** X9.  Rendering again with the props of the render that has just
    succeeded gives the same element and leaves the hook state where it
    is, however often it is repeated. *)
Theorem rerender_fixed_point history ref (p : gmap string value) el h' :
  Button (renders_from mount history) ref p = Normal (el, h') →
  Button h' ref p = Normal (el, h') ∧
  ∀ n, renders_from h' (replicate n (ref, p)) = h'.
Proof.
  intros HB.
  assert (Button h' ref p = Normal (el, h')) as Hfix.
  { rewrite Button_memo_transparent
      by (eapply Button_hooks_ok; [apply history_hooks_ok | exact HB]).
    by rewrite <- (Button_memo_transparent (renders_from mount history))
      by auto. }
  split; [exact Hfix |].
  intros n. unfold renders_from.
  induction n as [| n IH]; simpl; [done |].
  unfold after_render at 2. simpl. by rewrite Hfix.
Qed.

(** A first render of a danger button, rendered again. *)
Lemma rerender_fixed_point_example :
  ∃ el h',
    Button mount VNull {["variant" := VStr "danger"]} = Normal (el, h') ∧
    Button h' VNull {["variant" := VStr "danger"]} = Normal (el, h').
Proof.
  eexists _, _. split; [reflexivity |].
  refine (proj1 (rerender_fixed_point [] VNull
    {["variant" := VStr "danger"]} _ _ _)).
  reflexivity.
Defined.



(** ** A button without named props *)

(** X11.  When the caller passes none of the named props, the render
    succeeds with a [<button>] of type ["button"], not disabled, styled
    with the base, primary and medium fragments, whose content is the
    children slot alone. *)
Theorem default_render history ref (p : gmap string value) :
  (∀ k, k ∈ named_props → p !! k = None) →
  ∃ el h',
    Button (renders_from mount history) ref p = Normal (el, h') ∧
    tag el = "button" ∧
    attributes el !! "type" = Some (VStr "button") ∧
    attributes el !! "className"
    = Some (VStr (BASE_STYLES
                  +:+ " bg-blue-600 text-white hover:bg-blue-700 focus:ring-blue-500 active:bg-blue-800"
                  +:+ " px-4 py-2 text-base gap-2")) ∧
    attributes el !! "disabled" = Some (VBool false) ∧
    composed el = [span VUndefined].
Proof.
  intros Hp. rewrite Button_history.
  set (s := BASE_STYLES
            +:+ " bg-blue-600 text-white hover:bg-blue-700 focus:ring-blue-500 active:bg-blue-800"
            +:+ " px-4 py-2 text-base gap-2").
  assert (resolved p = Normal s) as ->.
  { unfold resolved. rewrite !Hp by in_list. by vm_compute. }
  exists (outcome ref p s).1, (outcome ref p s).2. split; [done |].
  pose proof (outcome_computed_attributes ref p s) as Hc.
  unfold computed_attributes in Hc. injection Hc as H1 H2 H3.
  rewrite outcome_composed. unfold outcome. cbn [fst attributes tag].
  rewrite H1, H2, H3. rewrite !Hp by in_list.
  by repeat split.
Qed.

(** Only an [id] and a click handler. *)
Lemma default_render_example :
  ∃ el h',
    Button mount VNull
      (<["id" := VStr "save"]> {["onClick" := VFunction 20 "() => save()"]})
    = Normal (el, h') ∧
    tag el = "button" ∧
    attributes el !! "type" = Some (VStr "button") ∧
    attributes el !! "className"
    = Some (VStr (BASE_STYLES
                  +:+ " bg-blue-600 text-white hover:bg-blue-700 focus:ring-blue-500 active:bg-blue-800"
                  +:+ " px-4 py-2 text-base gap-2")) ∧
    attributes el !! "disabled" = Some (VBool false) ∧
    composed el = [span VUndefined].
Proof.
  refine (default_render [] VNull
    (<["id" := VStr "save"]> {["onClick" := VFunction 20 "() => save()"]}) _).
  intros k Hk.
  rewrite lookup_insert_ne, lookup_singleton_ne; [done | |];
    intros <-; revert Hk; in_list.
Defined.

(** ** The tables against the documented names *)

Ltac split_elem H :=
  repeat (apply elem_of_cons in H as [-> | H]);
  try (by apply elem_of_nil in H).

Lemma VARIANT_STYLES_inj v1 v2 f :
  VARIANT_STYLES !! v1 = Some f → VARIANT_STYLES !! v2 = Some f → v1 = v2.
Proof.
  intros H1 H2.
  assert (v1 ∈ variants) as Hv1 by (apply VARIANT_STYLES_dom; eauto).
  assert (v2 ∈ variants) as Hv2 by (apply VARIANT_STYLES_dom; eauto).
  unfold variants in Hv1, Hv2.
  split_elem Hv1; split_elem Hv2; try reflexivity;
    vm_compute in H1, H2; congruence.
Qed.

Lemma SIZE_STYLES_inj s1 s2 f :
  SIZE_STYLES !! s1 = Some f → SIZE_STYLES !! s2 = Some f → s1 = s2.
Proof.
  intros H1 H2.
  assert (s1 ∈ sizes) as Hs1 by (apply SIZE_STYLES_dom; eauto).
  assert (s2 ∈ sizes) as Hs2 by (apply SIZE_STYLES_dom; eauto).
  unfold sizes in Hs1, Hs2.
  split_elem Hs1; split_elem Hs2; try reflexivity;
    vm_compute in H1, H2; congruence.
Qed.

Lemma Normal_inj {A} (a b : A) : Normal a = Normal b → a = b.
Proof. by intros [= ->]. Qed.

(** X12.  The tables have an entry for exactly the variants and the sizes
    the component documents, and every entry is a non-empty string without
    stray whitespace. *)
Theorem tables_match_documented_names :
  (∀ k, is_Some (VARIANT_STYLES !! k) ↔ k ∈ variants) ∧
  (∀ k, is_Some (SIZE_STYLES !! k) ↔ k ∈ sizes) ∧
  (∀ k v,
     VARIANT_STYLES !! k = Some v ∨ SIZE_STYLES !! k = Some v →
     ∃ s, v = VStr s ∧ s ≠ "" ∧ tidy s = true).
Proof.
  split; [exact VARIANT_STYLES_dom |]. split; [exact SIZE_STYLES_dom |].
  intros k v Hk.
  assert ((∃ s, v = VStr s) ∧ ToBoolean v = true ∧ good_fragment v = true)
    as ([s ->] & Ht & Hg).
  { destruct Hk as [Hk | Hk];
      eauto using VARIANT_STYLES_fragment, SIZE_STYLES_fragment. }
  exists s. split; [done |]. split.
  - intros ->. discriminate Ht.
  - apply good_fragment_tidy in Hg. unfold kept in Hg. rewrite Ht in Hg.
    simpl in Hg. by apply andb_prop in Hg as [-> _].
Qed.

(** The entry of the [outline] variant. *)
Lemma tables_match_documented_names_example :
  ∃ s,
    VStr "bg-transparent border-2 border-blue-600 text-blue-600 hover:bg-blue-50 focus:ring-blue-500 active:bg-blue-100"
    = VStr s ∧ s ≠ "" ∧ tidy s = true.
Proof.
  refine (proj2 (proj2 tables_match_documented_names) "outline" _ _).
  left. reflexivity.
Defined.

(** X13.  Two different recognised variants never give the same class
    string, and neither do two different recognised sizes, whatever the
    other props are. *)
Theorem class_string_tells_variant_and_size :
  (∀ (v1 v2 : string) (size fullWidth : value) (className : string),
     v1 ∈ variants → v2 ∈ variants →
     buttonClassName (VStr v1) size fullWidth (VStr className)
     = buttonClassName (VStr v2) size fullWidth (VStr className) →
     v1 = v2) ∧
  (∀ (variant : value) (s1 s2 : string) (fullWidth : value)
     (className : string),
     s1 ∈ sizes → s2 ∈ sizes →
     buttonClassName variant (VStr s1) fullWidth (VStr className)
     = buttonClassName variant (VStr s2) fullWidth (VStr className) →
     s1 = s2).
Proof.
  split.
  - intros v1 v2 size fullWidth className Hv1 Hv2.
    apply VARIANT_STYLES_dom in Hv1 as [f1 H1].
    apply VARIANT_STYLES_dom in Hv2 as [f2 H2].
    destruct (VARIANT_STYLES_fragment _ _ H1) as ([x1 ->] & Ht1 & _).
    destruct (VARIANT_STYLES_fragment _ _ H2) as ([x2 ->] & Ht2 & _).
    rewrite !buttonClassName_spaced by done.
    rewrite (kept_own _ _ _ H1 Ht1), (kept_own _ _ _ H2 Ht2).
    intros H.
    apply Normal_inj, append_inj_l, append_inj_r, append_inj_l in H.
    subst x2. by eapply VARIANT_STYLES_inj.
  - intros variant s1 s2 fullWidth className Hs1 Hs2.
    apply SIZE_STYLES_dom in Hs1 as [f1 H1].
    apply SIZE_STYLES_dom in Hs2 as [f2 H2].
    destruct (SIZE_STYLES_fragment _ _ H1) as ([x1 ->] & Ht1 & _).
    destruct (SIZE_STYLES_fragment _ _ H2) as ([x2 ->] & Ht2 & _).
    rewrite !buttonClassName_spaced by done.
    rewrite (kept_own _ _ _ H1 Ht1), (kept_own _ _ _ H2 Ht2).
    intros H.
    apply Normal_inj, append_inj_l, append_inj_l, append_inj_r,
      append_inj_l in H.
    subst x2. by eapply SIZE_STYLES_inj.
Qed.

(** The [link] variant against itself, at size [xs]. *)
Lemma class_string_tells_variant_and_size_example : "link" = "link".
Proof.
  refine (proj1 class_string_tells_variant_and_size "link" "link"
            (VStr "xs") (VBool false) "" _ _ _); [in_list | in_list |].
  reflexivity.
Defined.
